(** * Verification of the Argentine Senate voting-record scraper (parser.py)

    Shallow embedding of [src/parser.py]: Python's [re] module (the subset
    the parser uses) as a backtracking matcher over Unicode code points,
    [parse_votation_data], [get_output_filename] (through the regular
    expression that [datetime.strptime] builds for its format),
    [json.dump(..., indent=4, ensure_ascii=False)] and the main acquisition
    loop as a step function over an explicit state. *)

From Stdlib Require Import ZArith Lia.
From stdpp Require Import base list gmap strings pretty.

Set Warnings "-register-all".
Open Scope N_scope.

(** ** Text

    A Python [str] is a sequence of code points: [list N].  String literals
    of the source are written as Rocq strings, whose bytes are the UTF-8
    encoding of the source text, and decoded by [u]. *)

Abbreviation text := (list N) (only parsing).

Fixpoint utf8_decode (l : list N) : text :=
  match l with
  | [] => []
  | b1 :: r1 =>
      if b1 <? 128 then b1 :: utf8_decode r1
      else if b1 <? 224 then
        match r1 with
        | b2 :: r2 => (64 * (b1 - 192) + (b2 - 128)) :: utf8_decode r2
        | [] => []
        end
      else
        match r1 with
        | b2 :: b3 :: r3 =>
            (4096 * (b1 - 224) + 64 * (b2 - 128) + (b3 - 128)) :: utf8_decode r3
        | _ => []
        end
  end.

Definition u (s : string) : text :=
  utf8_decode (map (fun a => N.of_nat (Ascii.nat_of_ascii a)) (String.list_ascii_of_string s)).

(** ** Character classes of Python's [re] for [str] patterns *)

(** [\s] and [str.isspace]. *)
Definition is_space (c : N) : bool :=
  ((9 <=? c) && (c <=? 13)) || ((28 <=? c) && (c <=? 32)) || (c =? 133) || (c =? 160)
  || (c =? 5760) || ((8192 <=? c) && (c <=? 8202)) || (c =? 8232) || (c =? 8233)
  || (c =? 8239) || (c =? 8287) || (c =? 12288).

(** Zeros of the blocks of the Unicode category Nd (decimal digits): [\d]
    matches exactly these blocks of ten, and [int()] reads them. *)
Definition nd_zeros : list N :=
  [0x30; 0x660; 0x6F0; 0x7C0; 0x966; 0x9E6; 0xA66; 0xAE6; 0xB66; 0xBE6; 0xC66;
   0xCE6; 0xD66; 0xDE6; 0xE50; 0xED0; 0xF20; 0x1040; 0x1090; 0x17E0; 0x1810;
   0x1946; 0x19D0; 0x1A80; 0x1A90; 0x1B50; 0x1BB0; 0x1C40; 0x1C50; 0xA620;
   0xA8D0; 0xA900; 0xA9D0; 0xA9F0; 0xAA50; 0xABF0; 0xFF10; 0x104A0; 0x10D30;
   0x11066; 0x110F0; 0x11136; 0x111D0; 0x112F0; 0x11450; 0x114D0; 0x11650;
   0x116C0; 0x11730; 0x118E0; 0x11950; 0x11C50; 0x11D50; 0x11DA0; 0x16A60;
   0x16AC0; 0x16B50; 0x1D7CE; 0x1D7D8; 0x1D7E2; 0x1D7EC; 0x1D7F6; 0x1E140;
   0x1E2F0; 0x1E950; 0x1FBF0].

Definition digit_value (c : N) : option N :=
  match List.find (fun z => (z <=? c) && (c <? z + 10)) nd_zeros with
  | Some z => Some (c - z)
  | None => None
  end.

Definition is_digit (c : N) : bool := if digit_value c then true else false.

Definition is_ascii_digit (c : N) : bool := (48 <=? c) && (c <=? 57).

(** [\w] ([str.isalnum] or underscore), exact on Latin-1; above it every
    code point that is not whitespace nor in the punctuation and symbol
    blocks U+2000..U+2BFF and U+3000..U+303F is taken as a word
    character. *)
Definition is_word (c : N) : bool :=
  is_digit c || ((65 <=? c) && (c <=? 90)) || ((97 <=? c) && (c <=? 122)) || (c =? 95)
  || (c =? 0xAA) || (c =? 0xB2) || (c =? 0xB3) || (c =? 0xB5) || (c =? 0xB9)
  || (c =? 0xBA) || ((0xBC <=? c) && (c <=? 0xBE))
  || ((0xC0 <=? c) && (c <=? 0xD6)) || ((0xD8 <=? c) && (c <=? 0xF6))
  || ((0xF8 <=? c) && (c <=? 0xFF))
  || ((256 <=? c) && negb (is_space c)
      && negb ((0x2000 <=? c) && (c <=? 0x2BFF))
      && negb ((0x3000 <=? c) && (c <=? 0x303F))).

(** [[A-ZÁÉÍÓÚÑ]] *)
Definition is_upper_es (c : N) : bool :=
  ((65 <=? c) && (c <=? 90)) || (c =? 0xC1) || (c =? 0xC9) || (c =? 0xCD)
  || (c =? 0xD3) || (c =? 0xDA) || (c =? 0xD1).

Definition nl : N := 10.

(** ** Regular expressions

    Every quantifier of the parser's patterns applies to a single character
    class, so repetition is [Rep P lo hi greedy]: between [lo] and [hi]
    characters satisfying [P]. *)

Module Re.

Inductive regex :=
| Lit (s : text)
| Rep (P : N -> bool) (lo : nat) (hi : option nat) (greedy : bool)
| Seq (r1 r2 : regex)
| Alt (r1 r2 : regex)
| Group (i : nat) (r : regex)
| Bound.

(** Capture registers: group number and span, the most recent first. *)
Definition caps := list (nat * (nat * nat)).

Fixpoint lit_at (s l : text) : bool :=
  match s, l with
  | [], _ => true
  | a :: s', b :: l' => (b =? a) && lit_at s' l'
  | _ :: _, [] => false
  end.

Fixpoint run_len (P : N -> bool) (l : text) (cap : option nat) : nat :=
  match cap with
  | Some 0%nat => 0%nat
  | _ =>
    match l with
    | [] => 0%nat
    | a :: l' =>
        if P a then S (run_len P l' (match cap with Some n => Some (pred n) | None => None end))
        else 0%nat
    end
  end.

Fixpoint first_some {A B} (f : A -> option B) (l : list A) : option B :=
  match l with
  | [] => None
  | a :: l' => match f a with Some b => Some b | None => first_some f l' end
  end.

Definition word_at (t : text) (p : nat) : bool :=
  match t !! p with Some c => is_word c | None => false end.

Definition at_boundary (t : text) (p : nat) : bool :=
  let before := match p with O => false | S q => word_at t q end in
  xorb before (word_at t p).

(** The matcher in continuation-passing style: [k] is the rest of the
    pattern; alternatives and repetition counts are tried in Python's
    order, and the first success wins. *)
Fixpoint mt (t : text) (r : regex) (k : nat -> caps -> option caps)
    (p : nat) (c : caps) {struct r} : option caps :=
  match r with
  | Lit s => if lit_at s (drop p t) then k (p + length s)%nat c else None
  | Rep P lo hi g =>
      let n := run_len P (drop p t) hi in
      if (n <? lo)%nat then None
      else
        let ends := map (fun i => (p + i)%nat) (seq lo (S n - lo)) in
        first_some (fun e => k e c) (if g then reverse ends else ends)
  | Seq r1 r2 => mt t r1 (fun p' c' => mt t r2 k p' c') p c
  | Alt r1 r2 =>
      match mt t r1 k p c with
      | Some x => Some x
      | None => mt t r2 k p c
      end
  | Group i r1 => mt t r1 (fun p' c' => k p' ((i, (p, p')) :: c')) p c
  | Bound => if at_boundary t p then k p c else None
  end.

(** A match anchored at [p]: group 0 records the whole span. *)
Definition match_at (t : text) (r : regex) (p : nat) : option caps :=
  mt t r (fun e c => Some ((0%nat, (p, e)) :: c)) p [].

(** [re.search]: the leftmost position where the pattern matches. *)
Fixpoint search_from (t : text) (r : regex) (p : nat) (fuel : nat) : option caps :=
  match match_at t r p with
  | Some c => Some c
  | None => match fuel with O => None | S f => search_from t r (S p) f end
  end.

Definition search (t : text) (r : regex) : option caps := search_from t r 0 (length t).

Fixpoint group (c : caps) (i : nat) : option (nat * nat) :=
  match c with
  | [] => None
  | (j, sp) :: c' => if (i =? j)%nat then Some sp else group c' i
  end.

Definition slice (t : text) (sp : nat * nat) : text :=
  take (sp.2 - sp.1) (drop sp.1 t).

(** [m.group(i)] of a match ([""] for a group that took no part). *)
Definition group_text (t : text) (c : caps) (i : nat) : text :=
  match group c i with Some sp => slice t sp | None => [] end.

(** [re.findall]: successive non-overlapping matches, scanning on from the
    end of the previous one (one past it after an empty match; the vote
    pattern never matches the empty string). *)
Fixpoint findall_from (t : text) (r : regex) (p : nat) (fuel : nat) : list caps :=
  match fuel with
  | O => []
  | S f =>
      match search_from t r p (length t - p) with
      | None => []
      | Some c =>
          match group c 0 with
          | Some (s, e) => c :: findall_from t r (if (e =? s)%nat then S e else e) f
          | None => []
          end
      end
  end.

Definition findall (t : text) (r : regex) : list caps := findall_from t r 0 (S (length t)).

(** Pattern-building helpers. *)
Definition L (s : string) : regex := Lit (u s).
Definition one (P : N -> bool) : regex := Rep P 1 (Some 1%nat) true.
Definition plus (P : N -> bool) : regex := Rep P 1 None true.
Definition star (P : N -> bool) : regex := Rep P 0 None true.
Definition exactly (n : nat) (P : N -> bool) : regex := Rep P n (Some n) true.
Definition opt (r : regex) : regex := Alt r (Lit []).
Fixpoint seqs (rs : list regex) : regex :=
  match rs with [] => Lit [] | r :: rs' => Seq r (seqs rs') end.

End Re.

Import Re.

(** ** String helpers of Python *)

(** [str.strip()] *)
Definition lstrip (s : text) : text := (fix go l := match l with
  | [] => [] | a :: l' => if is_space a then go l' else l end) s.
Definition strip (s : text) : text := reverse (lstrip (reverse (lstrip s))).

(** [str.replace('  ', ' ')]: non-overlapping occurrences, left to right. *)
Fixpoint replace_double_space (s : text) : text :=
  match s with
  | 32 :: 32 :: s' => 32 :: replace_double_space s'
  | a :: s' => a :: replace_double_space s'
  | [] => []
  end.

(** [int()] of a string of decimal digits (Python integers are unbounded). *)
Definition py_int (s : text) : Z :=
  fold_left (fun acc c => (10 * acc + Z.of_N (default 0%N (digit_value c)))%Z) s 0%Z.

(** ** JSON values and Python dicts *)

Inductive jval :=
| JNull
| JBool (b : bool)
| JInt (z : Z)
| JStr (s : text)
| JArr (l : list jval)
| JObj (kv : list (string * jval)).

(** A [dict] with string keys keeps its insertion order. *)
Definition dict := list (string * jval).

Fixpoint dict_get (k : string) (d : dict) : option jval :=
  match d with
  | [] => None
  | (k', v) :: d' => if String.eqb k k' then Some v else dict_get k d'
  end.

(** [d[k] = v]: replaces the value in place, or appends a new key. *)
Fixpoint dict_set (k : string) (v : jval) (d : dict) : dict :=
  match d with
  | [] => [(k, v)]
  | (k', v') :: d' => if String.eqb k k' then (k', v) :: d' else (k', v') :: dict_set k v d'
  end.

(** Truthiness of [data.get(k)]: [None], [""], [0] and empty containers are falsy. *)
Definition truthy (o : option jval) : bool :=
  match o with
  | None | Some JNull | Some (JBool false) | Some (JStr []) | Some (JInt 0%Z)
  | Some (JArr []) | Some (JObj []) => false
  | _ => true
  end.

Definition opt_str (o : option text) : jval := match o with Some s => JStr s | None => JNull end.
Definition opt_int (o : option Z) : jval := match o with Some z => JInt z | None => JNull end.

(** ** The patterns of [parse_votation_data] *)

Definition not_nl (c : N) : bool := negb (c =? nl).
Definition not_paren_nl (c : N) : bool := negb ((c =? 40) || (c =? 41) || (c =? nl)).

(** [Proyecto:\s*([^\n]+)] *)
Definition re_project : regex := seqs [L "Proyecto:"; star is_space; Group 1 (plus not_nl)].
(** [ORDEN DEL DIA (\d+)] *)
Definition re_orden : regex := seqs [L "ORDEN DEL DIA "; Group 1 (plus is_digit)].
(** [ORDEN DEL DIA \d+\s*\((.*?)\)] *)
Definition re_orden_title : regex :=
  seqs [L "ORDEN DEL DIA "; plus is_digit; star is_space; L "(";
        Group 1 (Rep not_nl 0 None false); L ")"].
(** [MOCION SOBRE TABLAS Nº (\d+/\d+)] *)
Definition re_mocion : regex :=
  seqs [L "MOCION SOBRE TABLAS Nº "; Group 1 (seqs [plus is_digit; L "/"; plus is_digit])].
(** [Descripción:\s*([^\n]+)] *)
Definition re_description : regex := seqs [L "Descripción:"; star is_space; Group 1 (plus not_nl)].
(** [\d{2}/\d{2}/\d{4} \d{2}:\d{2}:\d{2}] *)
Definition re_timestamp : regex :=
  seqs [exactly 2 is_digit; L "/"; exactly 2 is_digit; L "/"; exactly 4 is_digit; L " ";
        exactly 2 is_digit; L ":"; exactly 2 is_digit; L ":"; exactly 2 is_digit].
(** [(?:Fecha:|Fecha )?(\d{2}/\d{2}/\d{4} \d{2}:\d{2}:\d{2})] *)
Definition re_date : regex := seqs [opt (Alt (L "Fecha:") (L "Fecha ")); Group 1 re_timestamp].
(** [Tipo Quorum: ([^\n]+)] and [Mayoría: ([^\n]+)] *)
Definition re_quorum : regex := seqs [L "Tipo Quorum: "; Group 1 (plus not_nl)].
Definition re_majority : regex := seqs [L "Mayoría: "; Group 1 (plus not_nl)].
(** The six tallies. *)
Definition re_members : regex := seqs [L "Miembros del cuerpo: "; Group 1 (plus is_digit)].
Definition re_present : regex := seqs [L "Presentes: "; Group 1 (plus is_digit)].
Definition re_absent : regex := seqs [L "Ausentes: "; Group 1 (plus is_digit)].
Definition re_affirmative : regex := seqs [L "Afirmativos: "; Group 1 (plus is_digit)].
Definition re_negative : regex := seqs [L "Negativos:"; star is_space; Group 1 (plus is_digit)].
Definition re_abstentions : regex := seqs [L "Abstenciones:"; star is_space; Group 1 (plus is_digit)].
(** [(?:\d+\s*\.\s*|\b)([A-ZÁÉÍÓÚÑ][^()\n]+?)\s+(SI|NO|AUSENTE)\s+(\d+|Presidente)] *)
Definition re_vote : regex :=
  seqs [Alt (seqs [plus is_digit; star is_space; L "."; star is_space]) Bound;
        Group 1 (Seq (one is_upper_es) (Rep not_paren_nl 1 None false));
        plus is_space;
        Group 2 (Alt (L "SI") (Alt (L "NO") (L "AUSENTE")));
        plus is_space;
        Group 3 (Alt (plus is_digit) (L "Presidente"))].
(** [Resultado:\s*([A-ZÁÉÍÓÚÑ ]+)] *)
Definition re_result : regex :=
  seqs [L "Resultado:"; star is_space; Group 1 (plus (fun c => is_upper_es c || (c =? 32)))].

(** [m = re.search(r, t)] followed by [m.group(1)]. *)
Definition search1 (r : regex) (t : text) : option text :=
  match search t r with Some c => Some (group_text t c 1) | None => None end.

(** ** [parse_votation_data] *)

(** The warnings the parser prints. *)
Inductive diag :=
| ProcessingDate (d : text)
| TotalMismatch (total present absent : Z)
| AffirmativeMismatch (counted reported : Z)
| NegativeMismatch (counted reported : Z)
| AbsentMismatch (counted reported : Z).

(** One entry of [votes]: the dict [{"name": .., "vote": .., "seat": ..}]. *)
Record vote_entry := VoteEntry { v_name : text; v_vote : text; v_seat : text }.

Definition vote_json (v : vote_entry) : jval :=
  JObj [("name", JStr (v_name v)); ("vote", JStr (v_vote v)); ("seat", JStr (v_seat v))].

(** The project block (lines 62-83). *)
Definition parse_project (t : text) (data : dict) : dict :=
  match search1 re_project t with
  | Some pm =>
      let project_text := strip pm in
      match search1 re_orden project_text with
      | Some n =>
          let data := dict_set "motion_number" (JStr n) data in
          match search1 re_orden_title project_text with
          | Some title => dict_set "project_title" (JStr (strip title)) data
          | None => data
          end
      | None => dict_set "project_title" (JStr project_text) data
      end
  | None =>
      match search1 re_mocion t with
      | Some m => dict_set "motion_number" (JStr m) data
      | None => dict_set "motion_number" JNull data
      end
  end.

(** The loop over the [findall] matches (lines 130-143). *)
Definition vote_of_match (t : text) (c : caps) : option vote_entry :=
  let name := replace_double_space (strip (group_text t c 1)) in
  let vote_type := group_text t c 2 in
  let seat := group_text t c 3 in
  if (length name <? 2)%nat then None
  else Some (VoteEntry name vote_type
               (if bool_decide (seat = u "Presidente") then u "Presidente" else seat)).

Fixpoint collect_votes (t : text) (ms : list caps) : list vote_entry :=
  match ms with
  | [] => []
  | c :: ms' =>
      match vote_of_match t c with
      | Some v => v :: collect_votes t ms'
      | None => collect_votes t ms'
      end
  end.

Definition extract_votes (t : text) : list vote_entry := collect_votes t (findall t re_vote).

(** [sum(1 for v in votes if v["vote"] == tok)] *)
Definition count_vote (tok : text) (votes : list vote_entry) : Z :=
  Z.of_nat (length (filter (fun v => v_vote v = tok) votes)).

Definition tally_check (mk : Z -> Z -> diag) (reported : option Z) (counted : Z) : list diag :=
  match reported with
  | Some r => if Z.eqb counted r then [] else [mk counted r]
  | None => []
  end.

Definition parse_votation_data (t : text) : dict * list diag :=
  let data := parse_project t [] in
  let data := dict_set "description" (opt_str (option_map strip (search1 re_description t))) data in
  let date := search1 re_date t in
  let data := dict_set "date" (opt_str date) data in
  let log1 := match date with Some (a :: d') => [ProcessingDate (a :: d')] | _ => [] end in
  let data := dict_set "quorum_type" (opt_str (option_map strip (search1 re_quorum t))) data in
  let data := dict_set "majority_required" (opt_str (option_map strip (search1 re_majority t))) data in
  let total := option_map py_int (search1 re_members t) in
  let present := option_map py_int (search1 re_present t) in
  let absent := option_map py_int (search1 re_absent t) in
  let affirmative := option_map py_int (search1 re_affirmative t) in
  let negative := option_map py_int (search1 re_negative t) in
  let abstentions := option_map py_int (search1 re_abstentions t) in
  let data := dict_set "total_members" (opt_int total) data in
  let data := dict_set "present" (opt_int present) data in
  let data := dict_set "absent" (opt_int absent) data in
  let data := dict_set "affirmative" (opt_int affirmative) data in
  let data := dict_set "negative" (opt_int negative) data in
  let data := dict_set "abstentions" (opt_int abstentions) data in
  let log2 :=
    match total, present, absent with
    | Some tm, Some pr, Some ab => if Z.eqb tm (pr + ab)%Z then [] else [TotalMismatch tm pr ab]
    | _, _, _ => []
    end in
  let votes := extract_votes t in
  let data := dict_set "votes" (JArr (map vote_json votes)) data in
  let log3 :=
    tally_check AffirmativeMismatch affirmative (count_vote (u "SI") votes)
    ++ tally_check NegativeMismatch negative (count_vote (u "NO") votes)
    ++ tally_check AbsentMismatch absent (count_vote (u "AUSENTE") votes) in
  let data := dict_set "result" (opt_str (option_map strip (search1 re_result t))) data in
  (data, log1 ++ log2 ++ log3).


(** ** [get_output_filename]

    [datetime.strptime(s, "%d/%m/%Y %H:%M:%S")]: [_strptime] turns the
    format into the regular expression below (the space becomes [\s+]),
    matches it at the start of [s], refuses unconverted trailing data, and
    then builds the date, which fails for an impossible day of the month,
    for year 0 and for a leap second. *)

(** [[lo-hi]] for ASCII digits, given as one-character strings. *)
Definition in_ascii (lo hi : string) (c : N) : bool :=
  match u lo, u hi with [l], [h] => (l <=? c) && (c <=? h) | _, _ => false end.

(** [(?P<d>3[0-1]|[1-2]\d|0[1-9]|[1-9]| [1-9])] *)
Definition re_day : regex :=
  Group 1 (Alt (Seq (L "3") (one (in_ascii "0" "1")))
          (Alt (Seq (one (in_ascii "1" "2")) (one is_digit))
          (Alt (Seq (L "0") (one (in_ascii "1" "9")))
          (Alt (one (in_ascii "1" "9"))
               (Seq (L " ") (one (in_ascii "1" "9"))))))).
(** [(?P<m>1[0-2]|0[1-9]|[1-9])] *)
Definition re_month : regex :=
  Group 2 (Alt (Seq (L "1") (one (in_ascii "0" "2")))
          (Alt (Seq (L "0") (one (in_ascii "1" "9")))
               (one (in_ascii "1" "9")))).
(** [(?P<Y>\d\d\d\d)] *)
Definition re_year : regex := Group 3 (exactly 4 is_digit).
(** [(?P<H>2[0-3]|[0-1]\d|\d)] *)
Definition re_hour : regex :=
  Group 4 (Alt (Seq (L "2") (one (in_ascii "0" "3")))
          (Alt (Seq (one (in_ascii "0" "1")) (one is_digit)) (one is_digit))).
(** [(?P<M>[0-5]\d|\d)] *)
Definition re_minute : regex :=
  Group 5 (Alt (Seq (one (in_ascii "0" "5")) (one is_digit)) (one is_digit)).
(** [(?P<S>6[0-1]|[0-5]\d|\d)] *)
Definition re_second : regex :=
  Group 6 (Alt (Seq (L "6") (one (in_ascii "0" "1")))
          (Alt (Seq (one (in_ascii "0" "5")) (one is_digit)) (one is_digit))).

Definition re_strptime : regex :=
  seqs [re_day; L "/"; re_month; L "/"; re_year; plus is_space;
        re_hour; L ":"; re_minute; L ":"; re_second].

Definition leap (y : Z) : bool :=
  (Z.eqb (y mod 4) 0 && negb (Z.eqb (y mod 100) 0)) || Z.eqb (y mod 400) 0.

Definition days_in_month (y m : Z) : Z :=
  if Z.eqb m 2 then (if leap y then 29 else 28)
  else if (Z.eqb m 4 || Z.eqb m 6 || Z.eqb m 9 || Z.eqb m 11) then 30 else 31.

(** The year of [datetime.strptime(s, "%d/%m/%Y %H:%M:%S")], or [None]
    where it raises [ValueError]. *)
Definition strptime_year (s : text) : option Z :=
  match match_at s re_strptime 0 with
  | None => None
  | Some c =>
      match group c 0 with
      | Some (_, e) =>
          if negb (e =? length s)%nat then None
          else
            let f i := py_int (group_text s c i) in
            let '(d, m, y, sec) := (f 1%nat, f 2%nat, f 3%nat, f 6%nat) in
            if (1 <=? y)%Z && (y <=? 9999)%Z && (1 <=? d)%Z && (d <=? days_in_month y m)%Z
               && (sec <=? 59)%Z
            then Some y else None
      | None => None
      end
  end.

Definition get_output_filename (date_str : text) : option string :=
  match date_str with
  | [] => None
  | _ =>
      match strptime_year date_str with
      | Some y => Some ("senate_voting_data_" +:+ pretty (Z.to_N y) +:+ ".json")%string
      | None => None
      end
  end.

(** ** [json.dump(obj, f, indent=4, ensure_ascii=False)] *)

Definition hex_digit (n : N) : N := if n <? 10 then 48 + n else 87 + n.

(** [py_encode_basestring]: only the quote, the backslash and the control
    characters are escaped; other characters are kept as they are. *)
Definition escape_char (c : N) : text :=
  if c =? 34 then [92; 34]
  else if c =? 92 then [92; 92]
  else if c =? 10 then [92; 110]
  else if c =? 13 then [92; 114]
  else if c =? 9 then [92; 116]
  else if c =? 8 then [92; 98]
  else if c =? 12 then [92; 102]
  else if c <? 32 then [92; 117; 48; 48; hex_digit (c / 16); hex_digit (c mod 16)]
  else [c].

Definition quote (s : text) : text := [34] ++ mjoin (map escape_char s) ++ [34].

Definition int_text (z : Z) : text :=
  (if (z <? 0)%Z then [45] else []) ++ u (pretty (Z.to_N (Z.abs z))).

Definition indent (lvl : nat) : text := replicate (4 * lvl) 32.

Fixpoint dump (lvl : nat) (v : jval) {struct v} : text :=
  match v with
  | JNull => u "null"
  | JBool b => if b then u "true" else u "false"
  | JInt z => int_text z
  | JStr s => quote s
  | JArr [] => u "[]"
  | JArr l =>
      [91] ++
      (fix items (l : list jval) (first : bool) : text :=
         match l with
         | [] => []
         | x :: l' => (if first then [] else [44]) ++ [10] ++ indent (S lvl)
                      ++ dump (S lvl) x ++ items l' false
         end) l true
      ++ [10] ++ indent lvl ++ [93]
  | JObj [] => u "{}"
  | JObj kv =>
      [123] ++
      (fix items (kv : list (string * jval)) (first : bool) : text :=
         match kv with
         | [] => []
         | (k, x) :: kv' => (if first then [] else [44]) ++ [10] ++ indent (S lvl)
                            ++ quote (u k) ++ u ": " ++ dump (S lvl) x ++ items kv' false
         end) kv true
      ++ [10] ++ indent lvl ++ [125]
  end.

Definition json_dump (v : jval) : text := dump 0 v.

(** ** The acquisition loop of [main]

    The collaborators are an environment: [download_pdf] is a function from
    the act id to the downloaded document, if the server answered 200.  The
    state holds [results_by_year] and the year files of the working
    directory (file name to the text [json.dump] wrote there); writing a
    file is assumed to succeed. *)

Inductive pdf := PdfUnreadable | PdfPages (pages : list text).

Fixpoint join_nl (l : list text) : text :=
  match l with
  | [] => []
  | [x] => x
  | x :: l' => x ++ [nl] ++ join_nl l'
  end.

(** [extract_text_from_pdf]: pages without text are skipped; a document
    that cannot be read or yields only whitespace gives [None]. *)
Definition extract_text_from_pdf (d : pdf) : option text :=
  match d with
  | PdfUnreadable => None
  | PdfPages ps =>
      let t := join_nl (filter (fun p => p <> []) ps) in
      match strip t with [] => None | _ => Some t end
  end.

Record state := State {
  results_by_year : gmap string (list jval);
  year_files : gmap string text;
  current_id : Z;
  consecutive_failures : Z
}.

Definition MAX_CONSECUTIVE_FAILURES : Z := 5.
Definition START_ID : Z := 2433.


(** The store update of a successful act: append and rewrite the year file. *)
Definition save_year (f : string) (st : state) : state :=
  State (results_by_year st)
        (<[f := json_dump (JArr (default [] (results_by_year st !! f)))]> (year_files st))
        (current_id st) (consecutive_failures st).

Definition store_act (f : string) (data : dict) (st : state) : state :=
  save_year f
    (State (<[f := default [] (results_by_year st !! f) ++ [JObj data]]> (results_by_year st))
           (year_files st) (current_id st) (consecutive_failures st)).

Definition date_text (o : option jval) : text :=
  match o with Some (JStr s) => s | _ => [] end.

(** One iteration of the [while] loop body. *)
Definition step (download_pdf : Z -> option pdf) (st : state) : state :=
  let id := (current_id st + 1)%Z in
  let failed := State (results_by_year st) (year_files st) id (consecutive_failures st + 1) in
  match download_pdf id with
  | None => failed
  | Some d =>
      match extract_text_from_pdf d with
      | None => failed
      | Some t =>
          let data := fst (parse_votation_data t) in
          if negb (truthy (dict_get "date" data)) then failed
          else
            let data := dict_set "act_id" (JInt id) data in
            let st' := State (results_by_year st) (year_files st) id 0 in
            match get_output_filename (date_text (dict_get "date" data)) with
            | Some f => store_act f data st'
            | None => st'
            end
      end
  end.

(** [while consecutive_failures < MAX_CONSECUTIVE_FAILURES: ...], with fuel. *)
Fixpoint run (fuel : nat) (download_pdf : Z -> option pdf) (st : state) : state :=
  match fuel with
  | O => st
  | S n =>
      if (consecutive_failures st <? MAX_CONSECUTIVE_FAILURES)%Z
      then run n download_pdf (step download_pdf st)
      else st
  end.

Definition halted (st : state) : Prop := (MAX_CONSECUTIVE_FAILURES <= consecutive_failures st)%Z.

(** ** Shapes named by the specification *)

(** A substring of the shape [dd/mm/yyyy hh:mm:ss] ([d] any decimal digit). *)
Definition is_timestamp (d : text) : bool :=
  match d with
  | [d1; d2; s1; m1; m2; s2; y1; y2; y3; y4; sp; h1; h2; c1; n1; n2; c2; e1; e2] =>
      is_digit d1 && is_digit d2 && (s1 =? 47) && is_digit m1 && is_digit m2 && (s2 =? 47)
      && is_digit y1 && is_digit y2 && is_digit y3 && is_digit y4 && (sp =? 32)
      && is_digit h1 && is_digit h2 && (c1 =? 58) && is_digit n1 && is_digit n2
      && (c2 =? 58) && is_digit e1 && is_digit e2
  | _ => false
  end.

Definition ts_at (t : text) (p : nat) : bool := is_timestamp (take 19 (drop p t)).

(** The field [k] of the record [parse_votation_data] returns. *)
Definition field (k : string) (t : text) : option jval := dict_get k (fst (parse_votation_data t)).

(** What a pattern can consume between two positions: every path of the
    matcher that reaches its continuation goes through such a span. *)
Fixpoint spans (t : text) (r : regex) (p q : nat) : Prop :=
  match r with
  | Lit s => take (length s) (drop p t) = s /\ q = (p + length s)%nat
  | Rep P lo _ _ =>
      (p + lo <= q)%nat /\ (q - p <= length t - p)%nat /\ Forall (fun c => P c = true) (slice t (p, q))
  | Seq r1 r2 => exists m, spans t r1 p m /\ spans t r2 m q
  | Alt r1 r2 => spans t r1 p q \/ spans t r2 p q
  | Group _ r1 => spans t r1 p q
  | Bound => q = p
  end.

(** [n] characters satisfying [P] at the head of [l]. *)
Definition fixed_ok (P : N -> bool) (n : nat) (l : text) : bool :=
  (n <=? length l)%nat && forallb P (take n l).

(** ** Shapes of the parser's output and of the controller's state *)

(** A pattern without capturing groups. *)
Fixpoint no_group (r : regex) : bool :=
  match r with
  | Lit _ | Rep _ _ _ _ | Bound => true
  | Seq r1 r2 | Alt r1 r2 => no_group r1 && no_group r2
  | Group _ _ => false
  end.

(** No whitespace at either end ([str.strip] leaves nothing to remove). *)
Definition trimmed (s : text) : Prop :=
  (forall c, head s = Some c -> is_space c = false)
  /\ (forall c, last s = Some c -> is_space c = false).

(** A string value the parser stores: one line, stripped at both ends. *)
Definition clean (s : text) : Prop := ~ In nl s /\ trimmed s.

(** A record the acquisition loop stored in the year file [f]: a dict whose
    date gives [f] and whose [act_id] lies in [(lo, hi]]. *)
Definition loop_record (f : string) (lo hi : Z) (r : jval) : Prop :=
  exists data d id, r = JObj data /\ dict_get "date" data = Some (JStr d)
    /\ get_output_filename d = Some f /\ dict_get "act_id" data = Some (JInt id)
    /\ (lo < id <= hi)%Z.



(** * Properties *)

(** ** Dictionaries *)

Lemma dict_get_set (k k' : string) (v : jval) (d : dict) :
  dict_get k (dict_set k' v d) = if String.eqb k k' then Some v else dict_get k d.
Proof.
  induction d as [|[k1 v1] d IH]; simpl.
  - destruct (String.eqb k k'); reflexivity.
  - destruct (String.eqb k' k1) eqn:E1; simpl.
    + apply String.eqb_eq in E1; subst k1.
      destruct (String.eqb k k'); reflexivity.
    + rewrite IH. destruct (String.eqb k k1) eqn:E2; [|reflexivity].
      apply String.eqb_eq in E2; subst k1.
      destruct (String.eqb k k') eqn:E3; [|reflexivity].
      apply String.eqb_eq in E3; subst k'. rewrite String.eqb_refl in E1. discriminate.
Qed.

Lemma dict_get_parse_project (k : string) (t : text) :
  k <> "motion_number"%string -> k <> "project_title"%string ->
  dict_get k (parse_project t []) = None.
Proof.
  intros H1 H2.
  assert (E1 : String.eqb k "motion_number" = false) by (apply String.eqb_neq; exact H1).
  assert (E2 : String.eqb k "project_title" = false) by (apply String.eqb_neq; exact H2).
  unfold parse_project.
  destruct (search1 re_project t) as [pm|];
  [destruct (search1 re_orden (strip pm)); [destruct (search1 re_orden_title (strip pm))|]
  | destruct (search1 re_mocion t)];
  rewrite ?dict_get_set, ?E1, ?E2; reflexivity.
Qed.

Ltac field_eq :=
  unfold field, parse_votation_data; cbv zeta; cbn [fst];
  rewrite !dict_get_set; cbn -[search1 opt_str opt_int extract_votes];
  try reflexivity;
  rewrite dict_get_parse_project by discriminate; reflexivity.

Lemma field_date t : field "date" t = Some (opt_str (search1 re_date t)).
Proof. field_eq. Qed.
Lemma field_total_members t : field "total_members" t = Some (opt_int (option_map py_int (search1 re_members t))).
Proof. field_eq. Qed.
Lemma field_present t : field "present" t = Some (opt_int (option_map py_int (search1 re_present t))).
Proof. field_eq. Qed.
Lemma field_absent t : field "absent" t = Some (opt_int (option_map py_int (search1 re_absent t))).
Proof. field_eq. Qed.

(** ** The acquisition loop *)

Lemma step_not_found (dl : Z -> option pdf) (st : state) :
  dl (current_id st + 1)%Z = None ->
  step dl st = State (results_by_year st) (year_files st) (current_id st + 1) (consecutive_failures st + 1).
Proof. intros H. unfold step. rewrite H. reflexivity. Qed.

Lemma run_not_found (dl : Z -> option pdf) (m : nat) :
  forall (st : state) (n : nat),
  (consecutive_failures st + Z.of_nat m <= MAX_CONSECUTIVE_FAILURES)%Z ->
  (forall j : Z, (1 <= j <= Z.of_nat m)%Z -> dl (current_id st + j)%Z = None) ->
  run (m + n) dl st
  = run n dl (State (results_by_year st) (year_files st)
                    (current_id st + Z.of_nat m) (consecutive_failures st + Z.of_nat m)).
Proof.
  induction m as [|m IH]; intros st n Hle Hdl.
  - destruct st; cbn. rewrite !Z.add_0_r. reflexivity.
  - cbn [Nat.add run].
    assert (Hlt : (consecutive_failures st <? MAX_CONSECUTIVE_FAILURES)%Z = true)
      by (apply Z.ltb_lt; lia).
    rewrite Hlt, step_not_found by (apply Hdl; lia).
    rewrite IH; cbn.
    + do 2 f_equal; lia.
    + lia.
    + intros j Hj. rewrite <- Z.add_assoc. apply Hdl. lia.
Qed.

Lemma run_halted (dl : Z -> option pdf) (st : state) (n : nat) :
  halted st -> run n dl st = st.
Proof.
  unfold halted. intros H. destruct n; cbn; [reflexivity|].
  destruct (Z.ltb_spec (consecutive_failures st) MAX_CONSECUTIVE_FAILURES); [lia|reflexivity].
Qed.

(** ** Persisting a year's collection *)

Lemma save_year_results (f : string) (st : state) :
  results_by_year (save_year f st) = results_by_year st.
Proof. reflexivity. Qed.

(** ** Claims about the controller *)

(** Sample collaborators for the concrete runs below. *)
Definition one_document (t : text) (i : Z) : option pdf :=
  if Z.eqb i (START_ID + 1) then Some (PdfPages [t]) else None.

Definition state_with_failures (n : Z) : state := State ∅ ∅ START_ID n.

(** C1 (counterexample): a record whose date marker matched a string that is
    not a calendar date (31 February) has no usable date, yet the iteration
    resets [consecutive_failures] to 0 instead of incrementing it. *)
Lemma C1_unparsable_date_resets_counter :
  let t := u "Fecha: 31/02/2024 10:00:00" in
  let st := state_with_failures 2 in
  let st' := step (one_document t) st in
  get_output_filename (date_text (field "date" t)) = None
  /\ consecutive_failures st' = 0%Z
  /\ consecutive_failures st' <> (consecutive_failures st + 1)%Z
  /\ year_files st' = year_files st.
Proof. vm_compute. repeat split; discriminate. Qed.

(** C1 (amended): a record without a date is discarded with the failure
    counter incremented by exactly one and no year file written; a record
    whose date is present but yields no year is not stored and writes no
    year file either, but counts as a success (the counter is reset). *)
Theorem step_record_without_usable_date (dl : Z -> option pdf) (st : state) (d : pdf) (t : text) :
  dl (current_id st + 1)%Z = Some d ->
  extract_text_from_pdf d = Some t ->
  (field "date" t = Some JNull ->
     step dl st = State (results_by_year st) (year_files st)
                        (current_id st + 1) (consecutive_failures st + 1))
  /\ (forall s, field "date" t = Some (JStr s) -> s <> [] -> get_output_filename s = None ->
     step dl st = State (results_by_year st) (year_files st) (current_id st + 1) 0).
Proof.
  intros Hdl Hex. unfold step. rewrite Hdl, Hex. unfold field. split.
  - intros Hd. rewrite Hd. reflexivity.
  - intros s Hd Hne Hf. rewrite Hd.
    destruct s as [|c s]; [congruence|]. cbn [truthy negb].
    rewrite dict_get_set. cbn [String.eqb Ascii.eqb Bool.eqb andb]. rewrite Hd.
    cbn [date_text]. rewrite Hf. reflexivity.
Qed.

Lemma step_record_without_usable_date_witness :
  let t1 := u "Acta sin fecha" in
  let t2 := u "Fecha: 31/02/2024 10:00:00" in
  step (one_document t1) (state_with_failures 2) = State ∅ ∅ (START_ID + 1) 3
  /\ step (one_document t2) (state_with_failures 2) = State ∅ ∅ (START_ID + 1) 0.
Proof.
  split.
  - apply (proj1 (step_record_without_usable_date (one_document (u "Acta sin fecha"))
                   (state_with_failures 2) (PdfPages [u "Acta sin fecha"]) (u "Acta sin fecha")
                   eq_refl eq_refl)).
    vm_compute. reflexivity.
  - apply (proj2 (step_record_without_usable_date (one_document (u "Fecha: 31/02/2024 10:00:00"))
                   (state_with_failures 2) (PdfPages [u "Fecha: 31/02/2024 10:00:00"])
                   (u "Fecha: 31/02/2024 10:00:00") eq_refl eq_refl)
                 (u "31/02/2024 10:00:00")).
    + vm_compute. reflexivity.
    + discriminate.
    + vm_compute. reflexivity.
Defined.

(** C5: from a state with no failures, five consecutive not-found answers
    halt the loop with the cursor five past its start and the year store
    (in memory and on disk) unchanged. *)
Theorem five_not_found_halts (dl : Z -> option pdf) (st : state) :
  consecutive_failures st = 0%Z ->
  (forall i : Z, (1 <= i <= 5)%Z -> dl (current_id st + i)%Z = None) ->
  let st' := run 5 dl st in
  current_id st' = (current_id st + 5)%Z
  /\ consecutive_failures st' = MAX_CONSECUTIVE_FAILURES
  /\ year_files st' = year_files st
  /\ results_by_year st' = results_by_year st
  /\ halted st'
  /\ (forall n : nat, run (5 + n) dl st = st').
Proof.
  intros H0 Hdl st'.
  assert (Hrun : forall n : nat, run (5 + n) dl st
            = run n dl (State (results_by_year st) (year_files st)
                              (current_id st + 5) (consecutive_failures st + 5))).
  { intros n. apply (run_not_found dl 5 st n); cbn; [rewrite H0; reflexivity|exact Hdl]. }
  assert (Hh : halted (State (results_by_year st) (year_files st)
                             (current_id st + 5) (consecutive_failures st + 5)))
    by (unfold halted; cbn; rewrite H0; reflexivity).
  assert (Hst' : st' = State (results_by_year st) (year_files st)
                             (current_id st + 5) (consecutive_failures st + 5)).
  { unfold st'. rewrite <- (Nat.add_0_r 5), Hrun. apply run_halted, Hh. }
  rewrite Hst'. repeat split.
  - cbn. rewrite H0. reflexivity.
  - exact Hh.
  - intros n. rewrite Hrun. apply run_halted, Hh.
Qed.

Lemma five_not_found_halts_witness :
  let st := state_with_failures 0 in
  consecutive_failures (run 5 (fun _ => None) st) = MAX_CONSECUTIVE_FAILURES
  /\ current_id (run 5 (fun _ => None) st) = (START_ID + 5)%Z.
Proof.
  destruct (five_not_found_halts (fun _ => None) (state_with_failures 0) eq_refl
              (fun i _ => eq_refl)) as (Hc & Hf & _).
  split; [exact Hf | exact Hc].
Defined.

(** C9: rewriting a year file from an unchanged collection is idempotent:
    the second write leaves the file, and the whole state, as the first
    one left them. *)
Theorem save_year_idempotent (f : string) (st : state) :
  save_year f (save_year f st) = save_year f st
  /\ year_files (save_year f (save_year f st)) !! f = year_files (save_year f st) !! f.
Proof.
  assert (E : save_year f (save_year f st) = save_year f st).
  { unfold save_year at 1. rewrite save_year_results. cbn.
    rewrite insert_insert_eq. reflexivity. }
  split; [exact E | rewrite E; reflexivity].
Qed.

(** ** Claims about the motion identity and the record's keys *)

Definition dated_act : text := u "Fecha: 12/03/2024 10:00:00".
Definition project_act : text := u "Proyecto: Ley de prueba
Fecha: 12/03/2024 10:00:00".

(** C2: a record from a document without a [Proyecto:] line is stored and
    written to its year file without a [project_title] key, and one whose
    [Proyecto:] line has no [ORDEN DEL DIA] marker without a
    [motion_number] key. *)
Theorem stored_record_missing_optional_keys :
  let f := "senate_voting_data_2024.json"%string in
  (match results_by_year (step (one_document dated_act) (state_with_failures 0)) !! f with
   | Some [JObj data] =>
       dict_get "project_title" data = None
       /\ year_files (step (one_document dated_act) (state_with_failures 0)) !! f
          = Some (json_dump (JArr [JObj data]))
   | _ => False
   end)
  /\ (match results_by_year (step (one_document project_act) (state_with_failures 0)) !! f with
      | Some [JObj data] =>
          dict_get "motion_number" data = None
          /\ year_files (step (one_document project_act) (state_with_failures 0)) !! f
             = Some (json_dump (JArr [JObj data]))
      | _ => False
      end).
Proof. vm_compute. repeat split. Qed.







(** ** Reconciliation of the affirmative tally *)




(** ** Soundness of the matcher *)

Lemma lit_at_take (s l : text) : lit_at s l = true -> take (length s) l = s.
Proof.
  revert l. induction s as [|a s IH]; intros [|b l] H; cbn in *; try easy.
  apply andb_true_iff in H as [Hab Hl]. apply N.eqb_eq in Hab. subst b.
  rewrite IH by exact Hl. reflexivity.
Qed.

Lemma run_len_spec (P : N -> bool) (l : text) :
  forall (cap : option nat) (i : nat), (i <= run_len P l cap)%nat ->
  (i <= length l)%nat /\ Forall (fun c => P c = true) (take i l).
Proof.
  induction l as [|a l IH]; intros cap i Hi.
  - destruct cap as [[|n]|]; cbn in Hi; assert (i = 0%nat) by lia; subst; cbn; auto.
  - destruct i as [|i]; [cbn; split; [lia | constructor]|].
    destruct cap as [[|n]|]; cbn in Hi; [lia| |];
      (destruct (P a) eqn:Ha; [|lia]); apply le_S_n in Hi;
      destruct (IH _ _ Hi) as [Hlen Hall]; cbn; (split; [lia | constructor; assumption]).
Qed.

Lemma first_some_some {A B} (f : A -> option B) (l : list A) (b : B) :
  first_some f l = Some b -> exists a, In a l /\ f a = Some b.
Proof.
  induction l as [|a l IH]; cbn; [discriminate|].
  destruct (f a) eqn:E.
  - intros [= <-]. exists a. auto.
  - intros H. destruct (IH H) as (a' & Hin & Hf). exists a'. auto.
Qed.

Lemma slice_from (t : text) (p i : nat) : slice t (p, (p + i)%nat) = take i (drop p t).
Proof. unfold slice. cbn [fst snd]. replace (p + i - p)%nat with i by lia. reflexivity. Qed.


Lemma mt_seq_eq (t : text) r1 r2 k p c :
  mt t (Seq r1 r2) k p c = mt t r1 (fun p' c' => mt t r2 k p' c') p c.
Proof. reflexivity. Qed.

Lemma mt_group_eq (t : text) i r k p c :
  mt t (Group i r) k p c = mt t r (fun p' c' => k p' ((i, (p, p')) :: c')) p c.
Proof. reflexivity. Qed.

Lemma search_from_match (t : text) (r : regex) (fuel : nat) :
  forall p c, search_from t r p fuel = Some c -> exists q, match_at t r q = Some c.
Proof.
  induction fuel as [|f IH]; intros p c H; cbn in H;
    destruct (match_at t r p) eqn:E.
  - injection H as <-. eauto.
  - discriminate.
  - injection H as <-. eauto.
  - exact (IH _ _ H).
Qed.

Lemma findall_match (t : text) (r : regex) (fuel : nat) :
  forall p c, In c (findall_from t r p fuel) -> exists q, match_at t r q = Some c.
Proof.
  induction fuel as [|f IH]; intros p c H; cbn in H; [contradiction|].
  destruct (search_from t r p (length t - p)) as [c'|] eqn:E; [|contradiction].
  destruct (group c' 0) as [[s e]|]; [|contradiction].
  destruct H as [<-|H].
  - exact (search_from_match _ _ _ _ _ E).
  - exact (IH _ _ H).
Qed.


Lemma collect_votes_from (t : text) (ms : list caps) (v : vote_entry) :
  In v (collect_votes t ms) -> exists c, In c ms /\ vote_of_match t c = Some v.
Proof.
  induction ms as [|c ms IH]; cbn; [contradiction|].
  destruct (vote_of_match t c) as [v'|] eqn:E.
  - intros [<-|H]; [eauto|]. destruct (IH H) as (c' & ? & ?). eauto.
  - intros H. destruct (IH H) as (c' & ? & ?). eauto.
Qed.



(** ** The date pattern *)

Lemma run_len_fixed (P : N -> bool) (n : nat) :
  forall l, (run_len P l (Some n) <= n)%nat
            /\ Nat.eqb (run_len P l (Some n)) n = fixed_ok P n l.
Proof.
  unfold fixed_ok. induction n as [|n IH]; intros l.
  - destruct l; cbn; split; reflexivity || lia.
  - destruct l as [|a l]; cbn; [split; [lia|reflexivity]|].
    destruct (P a); cbn.
    + destruct (IH l) as [H1 H2]. split; [lia|]. exact H2.
    + split; [lia|]. destruct (n <=? length l)%nat; reflexivity.
Qed.

Lemma mt_exact (t : text) (P : N -> bool) (n : nat) (g : bool) k p c :
  mt t (Rep P n (Some n) g) k p c = if fixed_ok P n (drop p t) then k (p + n)%nat c else None.
Proof.
  cbn [mt]. cbv zeta.
  destruct (run_len_fixed P n (drop p t)) as [Hle Heq].
  destruct (fixed_ok P n (drop p t)).
  - apply Nat.eqb_eq in Heq. rewrite Heq, Nat.ltb_irrefl.
    replace (S n - n)%nat with 1%nat by lia.
    destruct g; cbn; destruct (k (p + n)%nat c); reflexivity.
  - apply Nat.eqb_neq in Heq.
    destruct (Nat.ltb_spec (run_len P (drop p t) (Some n)) n); [reflexivity | lia].
Qed.

Lemma mt_lit (t : text) s k p c :
  mt t (Lit s) k p c = if lit_at s (drop p t) then k (p + length s)%nat c else None.
Proof. reflexivity. Qed.

Ltac bool_step :=
  match goal with
  | |- context [is_digit ?x] => destruct (is_digit x)
  | |- context [(?x =? ?n)%N] => destruct (x =? n)%N
  end; cbn -[is_digit N.eqb].

Lemma mt_timestamp (t : text) k p c :
  mt t re_timestamp k p c = if ts_at t p then k (p + 19)%nat c else None.
Proof.
  unfold re_timestamp, exactly, L. cbn [seqs].
  change (u "/") with [47]; change (u " ") with [32]; change (u ":") with [58].
  repeat (rewrite ?mt_seq_eq, ?mt_exact, ?mt_lit; cbv beta).
  unfold ts_at. rewrite <- !drop_drop.
  generalize (drop p t) as l. intros l.
  cbn [length].
  do 19 (destruct l as [|? l]; [cbn -[is_digit N.eqb]; repeat bool_step; reflexivity|]).
  cbn -[is_digit N.eqb]. repeat bool_step; try reflexivity.
  f_equal. lia.
Qed.

Lemma mt_alt_eq (t : text) r1 r2 k p c :
  mt t (Alt r1 r2) k p c = match mt t r1 k p c with Some x => Some x | None => mt t r2 k p c end.
Proof. reflexivity. Qed.

Definition fecha_at (t : text) (p : nat) : bool :=
  lit_at (u "Fecha:") (drop p t) || lit_at (u "Fecha ") (drop p t).

Lemma match_at_date (t : text) (p : nat) :
  match_at t re_date p =
    if fecha_at t p && ts_at t (p + 6) then Some [(0, (p, p + 25)); (1, (p + 6, p + 25))]%nat
    else if ts_at t p then Some [(0, (p, p + 19)); (1, (p, p + 19))]%nat
    else None.
Proof.
  unfold match_at, re_date, opt, L, fecha_at. cbn [seqs].
  rewrite mt_seq_eq, !mt_alt_eq, !mt_lit.
  repeat (rewrite ?mt_seq_eq, ?mt_group_eq, ?mt_timestamp, ?mt_lit; cbv beta).
  change (length (u "Fecha:")) with 6%nat. change (length (u "Fecha ")) with 6%nat.
  cbn [length lit_at].
  destruct (lit_at (u "Fecha:") (drop p t)), (lit_at (u "Fecha ") (drop p t)),
    (ts_at t (p + 6)), (ts_at t (p + 0)) eqn:E; cbn [orb andb];
  rewrite ?Nat.add_0_r in *; rewrite ?E;
  repeat match goal with |- context [(?x + 0)%nat] => rewrite (Nat.add_0_r x) end;
  try reflexivity;
  repeat (f_equal; try lia).
Qed.





Lemma search_from_spec (t : text) (r : regex) (fuel : nat) :
  forall p,
  (search_from t r p fuel = None /\ forall q, (p <= q <= p + fuel)%nat -> match_at t r q = None)
  \/ (exists q c, (p <= q <= p + fuel)%nat /\ match_at t r q = Some c
      /\ search_from t r p fuel = Some c
      /\ forall q', (p <= q' < q)%nat -> match_at t r q' = None).
Proof.
  induction fuel as [|f IH]; intros p; cbn [search_from];
    destruct (match_at t r p) as [c|] eqn:E.
  - right. exists p, c. repeat split; auto; intros; lia.
  - left. split; [reflexivity|]. intros q Hq. replace q with p by lia. exact E.
  - right. exists p, c. repeat split; auto; intros; lia.
  - destruct (IH (S p)) as [[Hn Hall] | (q & c & Hq & Hm & Hs & Hmin)].
    + left. split; [exact Hn|]. intros q Hq.
      destruct (Nat.eq_dec q p) as [->|]; [exact E | apply Hall; lia].
    + right. exists q, c. repeat split; try lia; auto.
      intros q' Hq'. destruct (Nat.eq_dec q' p) as [->|]; [exact E | apply Hmin; lia].
Qed.


Lemma search_date_found (t : text) (c : caps) :
  search t re_date = Some c -> exists q, group c 1 = Some (q, q + 19)%nat /\ ts_at t q = true.
Proof.
  unfold search. intros Hs.
  destruct (search_from_spec t re_date (length t) 0)
    as [[Hn _] | (p & c' & _ & Hm & Hs' & _)]; [congruence|].
  rewrite Hs in Hs'. injection Hs' as <-.
  rewrite match_at_date in Hm.
  destruct (fecha_at t p && ts_at t (p + 6)) eqn:F.
  - apply andb_true_iff in F as [_ F]. injection Hm as <-.
    exists (p + 6)%nat. split; [cbn; do 2 f_equal; lia | exact F].
  - destruct (ts_at t p) eqn:T; [|discriminate]. injection Hm as <-.
    exists p. split; [reflexivity | exact T].
Qed.





Lemma search1_date_group (t : text) (c : caps) (q : nat) :
  search t re_date = Some c -> group c 1 = Some (q, q + 19)%nat ->
  search1 re_date t = Some (take 19 (drop q t)).
Proof.
  intros Hs Hg. unfold search1, group_text. rewrite Hs, Hg. unfold slice. cbn.
  do 2 f_equal. lia.
Qed.







(** * Further properties of the parser, the controller and the JSON output *)

Lemma mt_sound_ng (t : text) (r : regex) :
  no_group r = true ->
  forall k p c res, mt t r k p c = Some res -> exists q, k q c = Some res /\ spans t r p q.
Proof.
  induction r as [s | P lo hi g | r1 IH1 r2 IH2 | r1 IH1 r2 IH2 | i r1 IH | ];
    intros Hng k p c res H; cbn [mt] in H; cbv zeta in H; cbn [no_group] in Hng.
  - destruct (lit_at s (drop p t)) eqn:E; [|discriminate].
    exists (p + length s)%nat. split; [exact H|]. split; [apply lit_at_take, E | reflexivity].
  - destruct (Nat.ltb_spec (run_len P (drop p t) hi) lo) as [_|Hlo]; [discriminate|].
    apply first_some_some in H as (e & Hin & Hk).
    assert (Hin' : In e (map (fun i => (p + i)%nat) (seq lo (S (run_len P (drop p t) hi) - lo)))).
    { destruct g; [apply list_elem_of_In in Hin; apply list_elem_of_In;
                   rewrite elem_of_reverse in Hin; exact Hin | exact Hin]. }
    apply in_map_iff in Hin' as (i & <- & Hi). apply in_seq in Hi.
    destruct (run_len_spec P (drop p t) hi i ltac:(lia)) as [Hlen Hall].
    rewrite length_drop in Hlen.
    exists (p + i)%nat. split; [exact Hk|]. cbn [spans]. rewrite slice_from.
    split; [lia|]. split; [lia | exact Hall].
  - apply andb_true_iff in Hng as [N1 N2].
    destruct (IH1 N1 _ _ _ _ H) as (m & H1 & Hs1).
    destruct (IH2 N2 _ _ _ _ H1) as (q & H2 & Hs2).
    exists q. split; [exact H2|]. exists m. auto.
  - apply andb_true_iff in Hng as [N1 N2].
    destruct (mt t r1 k p c) eqn:E.
    + injection H as <-. destruct (IH1 N1 _ _ _ _ E) as (q & Hk & Hs).
      exists q. cbn. auto.
    + destruct (IH2 N2 _ _ _ _ H) as (q & Hk & Hs). exists q. cbn. auto.
  - discriminate.
  - destruct (at_boundary t p); [|discriminate].
    exists p. cbn. auto.
Qed.

(** Peel the first element of a sequence off a successful match. *)
Ltac peel H :=
  rewrite mt_seq_eq in H; try rewrite mt_group_eq in H;
  let q := fresh "q" in let Hs := fresh "Hs" in
  apply mt_sound_ng in H; [destruct H as (q & H & Hs); cbv beta in H | reflexivity].

Lemma lstrip_cons (a : N) (l : text) :
  lstrip (a :: l) = if is_space a then lstrip l else a :: l.
Proof. reflexivity. Qed.

Lemma lstrip_suffix (s : text) :
  exists a, s = a ++ lstrip s /\ Forall (fun c => is_space c = true) a.
Proof.
  induction s as [|x s IH]; [exists []; auto|].
  rewrite lstrip_cons. destruct (is_space x) eqn:E.
  - destruct IH as (a & Ha & Hf). exists (x :: a).
    split; [cbn; rewrite <- Ha; reflexivity | constructor; assumption].
  - exists []. auto.
Qed.

Lemma lstrip_head (s : text) (c : N) : head (lstrip s) = Some c -> is_space c = false.
Proof.
  induction s as [|x s IH]; [discriminate|].
  rewrite lstrip_cons. destruct (is_space x) eqn:E; [exact IH|].
  cbn. intros [= <-]. exact E.
Qed.

Lemma strip_infix (s : text) :
  exists a b, s = a ++ strip s ++ b
    /\ Forall (fun c => is_space c = true) a /\ Forall (fun c => is_space c = true) b.
Proof.
  destruct (lstrip_suffix s) as (a & Ha & Fa).
  destruct (lstrip_suffix (reverse (lstrip s))) as (b & Hb & Fb).
  exists a, (reverse b). unfold strip.
  split; [|split; [exact Fa | apply Forall_reverse; exact Fb]].
  rewrite Ha at 1. f_equal. set (X := lstrip (reverse (lstrip s))) in *.
  rewrite <- (reverse_involutive (lstrip s)) at 1. rewrite Hb, reverse_app. reflexivity.
Qed.

Lemma strip_forall (P : N -> Prop) (s : text) : Forall P s -> Forall P (strip s).
Proof.
  destruct (strip_infix s) as (a & b & Hs & _ & _). rewrite Hs at 1.
  rewrite !Forall_app. tauto.
Qed.

Lemma strip_trimmed (s : text) : trimmed (strip s).
Proof.
  unfold trimmed, strip. split; intros c H.
  - rewrite head_reverse in H.
    destruct (lstrip_suffix (reverse (lstrip s))) as (b & Hb & _).
    assert (E : last (reverse (lstrip s)) = Some c) by (rewrite Hb, last_app, H; reflexivity).
    rewrite last_reverse in E. exact (lstrip_head s c E).
  - rewrite last_reverse in H. exact (lstrip_head _ c H).
Qed.

Lemma is_space_cases (c : N) : is_space c = true ->
  c ∈ [9;10;11;12;13;28;29;30;31;32;133;160;5760;8192;8193;8194;8195;8196;8197;8198;
       8199;8200;8201;8202;8232;8233;8239;8287;12288].
Proof.
  unfold is_space. intros H.
  repeat match type of H with
  | (_ || _) = true => apply orb_true_iff in H as [H|H]
  end;
  repeat match type of H with
  | (_ && _) = true => apply andb_true_iff in H as [?H ?H]
  end;
  repeat match goal with
  | Hb : (_ <=? _) = true |- _ => apply N.leb_le in Hb
  | Hb : (_ =? _) = true |- _ => apply N.eqb_eq in Hb
  end;
  first [subst c; set_solver
        | assert (c = 9 \/ c = 10 \/ c = 11 \/ c = 12 \/ c = 13) as Hc by lia;
          repeat destruct Hc as [Hc|Hc]; subst c; set_solver
        | assert (c = 28 \/ c = 29 \/ c = 30 \/ c = 31 \/ c = 32) as Hc by lia;
          repeat destruct Hc as [Hc|Hc]; subst c; set_solver
        | assert (c = 8192 \/ c = 8193 \/ c = 8194 \/ c = 8195 \/ c = 8196 \/ c = 8197
                  \/ c = 8198 \/ c = 8199 \/ c = 8200 \/ c = 8201 \/ c = 8202) as Hc by lia;
          repeat destruct Hc as [Hc|Hc]; subst c; set_solver].
Qed.

Lemma digit_not_space (c : N) : is_digit c = true -> is_space c = false.
Proof.
  intros Hd. destruct (is_space c) eqn:Hs; [|reflexivity].
  apply is_space_cases in Hs.
  repeat (apply elem_of_cons in Hs as [->|Hs]; [vm_compute in Hd; discriminate|]).
  apply elem_of_nil in Hs. contradiction.
Qed.

Lemma no_group_seqs (l : list regex) : no_group (seqs l) = forallb no_group l.
Proof. induction l as [|r l IH]; cbn; [reflexivity|]. rewrite IH. reflexivity. Qed.

Lemma mt_seqs_skip (t : text) (pre rs : list regex) :
  forallb no_group pre = true ->
  forall k p c res, mt t (seqs (pre ++ rs)) k p c = Some res ->
  exists p', mt t (seqs rs) k p' c = Some res.
Proof.
  induction pre as [|r pre IH]; intros Hng k p c res H; [eauto|].
  cbn [forallb] in Hng. apply andb_true_iff in Hng as [N1 N2].
  cbn [app seqs] in H. rewrite mt_seq_eq in H.
  apply (mt_sound_ng t r N1) in H as (q & H & _). exact (IH N2 _ _ _ _ H).
Qed.

(** [m.group(1)] of a search for a pattern whose only group is group 1. *)
Lemma search1_group1 (pre : list regex) (r1 : regex) (post : list regex) (t s : text) :
  forallb no_group pre = true -> no_group r1 = true -> forallb no_group post = true ->
  search1 (seqs (pre ++ Group 1 r1 :: post)) t = Some s ->
  exists p q, spans t r1 p q /\ s = slice t (p, q).
Proof.
  intros N1 N2 N3. unfold search1.
  destruct (search t _) as [c|] eqn:Hs; [|discriminate]. intros [= <-].
  unfold search in Hs. apply search_from_match in Hs as (q0 & Hm).
  unfold match_at in Hm. apply (mt_seqs_skip t pre _ N1) in Hm as (p' & Hm).
  cbn [seqs] in Hm. rewrite mt_seq_eq, mt_group_eq in Hm.
  apply (mt_sound_ng t r1 N2) in Hm as (q & Hm & Hsp). cbv beta in Hm.
  apply mt_sound_ng in Hm as (e & He & _); [|rewrite no_group_seqs; exact N3].
  injection He as <-. exists p', q. split; [exact Hsp | reflexivity].
Qed.

Lemma spans_plus (P : N -> bool) (t : text) (p q : nat) :
  spans t (plus P) p q ->
  (p < q <= length t)%nat /\ slice t (p, q) <> [] /\ Forall (fun c => P c = true) (slice t (p, q)).
Proof.
  cbn [spans plus]. intros (Hle & Hlen & Hall).
  assert (Hb : (p < q <= length t)%nat) by lia.
  split; [exact Hb|]. split; [|exact Hall].
  unfold slice; cbn [fst snd]. intros Hnil.
  apply (f_equal length) in Hnil. rewrite length_take, length_drop in Hnil. cbn in Hnil. lia.
Qed.

Lemma spans_lit (s t : text) (p q : nat) :
  spans t (Lit s) p q -> q = (p + length s)%nat /\ slice t (p, q) = s.
Proof.
  cbn [spans]. intros [Hs ->]. split; [reflexivity|].
  rewrite slice_from. exact Hs.
Qed.

Lemma slice_app (t : text) (p m q : nat) :
  (p <= m <= q)%nat -> slice t (p, q) = slice t (p, m) ++ slice t (m, q).
Proof.
  intros H. unfold slice; cbn [fst snd].
  replace (drop m t) with (drop (m - p) (drop p t)) by (rewrite drop_drop; f_equal; lia).
  rewrite take_take_drop. f_equal. lia.
Qed.

Lemma clean_strip (P : N -> bool) (d : text) :
  P nl = false -> Forall (fun c => P c = true) d -> clean (strip d).
Proof.
  intros Hnl Hd. split; [|apply strip_trimmed].
  intros Hin. apply strip_forall in Hd. rewrite List.Forall_forall in Hd.
  rewrite (Hd nl Hin) in Hnl. discriminate.
Qed.

Lemma clean_digits (s : text) :
  Forall (fun c => is_digit c = true) s -> clean s.
Proof.
  intros Hs. rewrite List.Forall_forall in Hs. split; [|split].
  - intros Hin. specialize (Hs nl Hin). discriminate.
  - intros c Hc. apply head_Some_elem_of, list_elem_of_In in Hc.
    apply digit_not_space, Hs, Hc.
  - intros c Hc. apply last_Some_elem_of, list_elem_of_In in Hc.
    apply digit_not_space, Hs, Hc.
Qed.

(** Fields captured by [label\s*([^\n]+)] or the like, then stripped. *)
Lemma search1_strip_clean (pre : list regex) (P : N -> bool) (t d : text) :
  forallb no_group pre = true -> P nl = false ->
  search1 (seqs (pre ++ [Group 1 (plus P)])) t = Some d -> clean (strip d).
Proof.
  intros N1 Hnl H. apply search1_group1 in H as (p & q & Hsp & ->); try reflexivity; [|exact N1].
  apply spans_plus in Hsp as (_ & _ & Hall). exact (clean_strip P _ Hnl Hall).
Qed.

Lemma search1_digits (pre : list regex) (t d : text) :
  forallb no_group pre = true ->
  search1 (seqs (pre ++ [Group 1 (plus is_digit)])) t = Some d ->
  d <> [] /\ Forall (fun c => is_digit c = true) d.
Proof.
  intros N1 H. apply search1_group1 in H as (p & q & Hsp & ->); try reflexivity; [|exact N1].
  apply spans_plus in Hsp as (_ & Hne & Hall). auto.
Qed.

Lemma py_int_nonneg (s : text) : (0 <= py_int s)%Z.
Proof.
  unfold py_int.
  assert (G : forall acc, (0 <= acc)%Z ->
            (0 <= fold_left (fun acc c => (10 * acc + Z.of_N (default 0%N (digit_value c)))%Z) s acc)%Z).
  { induction s as [|c s IH]; intros acc Hacc; cbn; [exact Hacc|]. apply IH. lia. }
  apply G. lia.
Qed.

Lemma timestamp_clean (d : text) : is_timestamp d = true -> clean d.
Proof.
  intros H.
  do 19 (destruct d as [|? d]; [discriminate|]). destruct d; [|discriminate].
  cbn [is_timestamp] in H.
  repeat (apply andb_true_iff in H as [H ?H]).
  repeat match goal with Hb : (_ =? _) = true |- _ => apply N.eqb_eq in Hb; subst end.
  assert (D : forall x, is_digit x = true -> x <> nl) by (intros x Hx ->; vm_compute in Hx; discriminate Hx).
  split; [|split].
  - cbn. intros Hin.
    repeat (destruct Hin as [Hin|Hin];
            [first [match type of Hin with ?y = nl => exact (D y ltac:(assumption) Hin) end
                   | vm_compute in Hin; discriminate Hin]|]).
    exact Hin.
  - cbn. intros c [= <-]. apply digit_not_space. assumption.
  - cbn. intros c [= <-]. apply digit_not_space. assumption.
Qed.

Lemma clean_mocion (A B : text) :
  A <> [] -> B <> [] ->
  Forall (fun c => is_digit c = true) A -> Forall (fun c => is_digit c = true) B ->
  clean (A ++ [47] ++ B).
Proof.
  intros HA HB DA DB.
  assert (CA := clean_digits A DA). assert (CB := clean_digits B DB).
  split; [|split].
  - rewrite !in_app_iff. intros [H|[H|H]]; [exact (proj1 CA H) | cbn in H; destruct H as [H|[]]; discriminate H | exact (proj1 CB H)].
  - destruct A as [|x A]; [contradiction|]. intros c Hc. apply (proj1 (proj2 CA)). exact Hc.
  - destruct B as [|y B] using rev_ind; [contradiction|]. intros c Hc.
    rewrite !app_assoc, last_snoc in Hc. apply (proj2 (proj2 CB)). rewrite last_snoc. exact Hc.
Qed.

Lemma clean_date (t d : text) : search1 re_date t = Some d -> clean d.
Proof.
  intros E. destruct (search t re_date) as [c|] eqn:Hs.
  - destruct (search_date_found t c Hs) as (q & Hg & Tq).
    rewrite (search1_date_group t c q Hs Hg) in E. injection E as <-. exact (timestamp_clean _ Tq).
  - unfold search1 in E. rewrite Hs in E. discriminate.
Qed.

Lemma parse_project_clean (t : text) (k : string) (s : text) :
  dict_get k (parse_project t []) = Some (JStr s) -> clean s.
Proof.
  unfold parse_project.
  destruct (search1 re_project t) as [pm|] eqn:Hp.
  - pose proof (search1_strip_clean [L "Proyecto:"; star is_space] not_nl t pm eq_refl eq_refl Hp) as Cp.
    destruct (search1 re_orden (strip pm)) as [n|] eqn:Ho.
    + pose proof (clean_digits n (proj2 (search1_digits [L "ORDEN DEL DIA "] _ _ eq_refl Ho))) as Cn.
      destruct (search1 re_orden_title (strip pm)) as [ti|] eqn:Ht.
      * pose proof (search1_group1 [L "ORDEN DEL DIA "; plus is_digit; star is_space; L "("]
                      (Rep not_nl 0 None false) [L ")"] _ _ eq_refl eq_refl eq_refl Ht)
          as (a & b & Hsp & Hti).
        destruct Hsp as (_ & _ & Hall). rewrite <- Hti in Hall.
        pose proof (clean_strip not_nl ti eq_refl Hall) as Ct.
        intros H. rewrite !dict_get_set in H. cbn [dict_get] in H.
        repeat match type of H with context [String.eqb k ?x] => destruct (String.eqb k x) end;
          try discriminate H; injection H as <-; assumption.
      * intros H. rewrite !dict_get_set in H. cbn [dict_get] in H.
        repeat match type of H with context [String.eqb k ?x] => destruct (String.eqb k x) end;
          try discriminate H; injection H as <-; assumption.
    + intros H. rewrite !dict_get_set in H. cbn [dict_get] in H.
      repeat match type of H with context [String.eqb k ?x] => destruct (String.eqb k x) end;
        try discriminate H; injection H as <-; assumption.
  - destruct (search1 re_mocion t) as [m|] eqn:Hm.
    + pose proof (search1_group1 [L "MOCION SOBRE TABLAS Nº "] (seqs [plus is_digit; L "/"; plus is_digit])
                    [] t m eq_refl eq_refl eq_refl Hm) as (a & b & Hsp & ->).
      cbn [seqs spans] in Hsp. destruct Hsp as (m1 & S1 & m2 & S2 & m3 & S3 & _ & ->).
      apply spans_plus in S1 as (B1 & N1 & D1). apply spans_plus in S3 as (B3 & N3 & D3).
      unfold L in S2. apply spans_lit in S2 as [E2 L2]. change (length (u "/")) with 1%nat in E2.
      rewrite Nat.add_0_r, (slice_app t a m1 m3) by lia. rewrite (slice_app t m1 m2 m3) by lia.
      rewrite L2. pose proof (clean_mocion _ _ N1 N3 D1 D3) as Cm.
      intros H. rewrite !dict_get_set in H. cbn [dict_get] in H.
      repeat match type of H with context [String.eqb k ?x] => destruct (String.eqb k x) end;
        try discriminate H; injection H as <-; exact Cm.
    + intros H. rewrite !dict_get_set in H. cbn [dict_get] in H.
      repeat match type of H with context [String.eqb k ?x] => destruct (String.eqb k x) end;
        discriminate H.
Qed.

Lemma parse_project_no_int (t : text) (k : string) (z : Z) :
  dict_get k (parse_project t []) <> Some (JInt z).
Proof.
  unfold parse_project. intros H.
  destruct (search1 re_project t) as [pm|];
  [destruct (search1 re_orden (strip pm)); [destruct (search1 re_orden_title (strip pm))|]
  | destruct (search1 re_mocion t)];
  rewrite ?dict_get_set in H; cbn [dict_get] in H;
  repeat match type of H with context [String.eqb k ?x] => destruct (String.eqb k x) end;
  discriminate H.
Qed.

Lemma clean_description t d : search1 re_description t = Some d -> clean (strip d).
Proof. exact (search1_strip_clean [L "Descripción:"; star is_space] not_nl t d eq_refl eq_refl). Qed.
Lemma clean_quorum t d : search1 re_quorum t = Some d -> clean (strip d).
Proof. exact (search1_strip_clean [L "Tipo Quorum: "] not_nl t d eq_refl eq_refl). Qed.
Lemma clean_majority t d : search1 re_majority t = Some d -> clean (strip d).
Proof. exact (search1_strip_clean [L "Mayoría: "] not_nl t d eq_refl eq_refl). Qed.
Lemma clean_result t d : search1 re_result t = Some d -> clean (strip d).
Proof.
  exact (search1_strip_clean [L "Resultado:"; star is_space] (fun c => is_upper_es c || (c =? 32))
           t d eq_refl eq_refl).
Qed.

Ltac record_cases k :=
  unfold field, parse_votation_data; cbv zeta; cbn [fst]; rewrite !dict_get_set;
  repeat match goal with |- context [String.eqb k ?x] => destruct (String.eqb k x) end.

(** Every text value of the record is a single line without leading or
    trailing whitespace. *)
Theorem record_text_fields_clean (t : text) (k : string) (s : text) :
  field k t = Some (JStr s) -> clean s.
Proof.
  record_cases k; intros H;
  try (apply (parse_project_clean t k s H));
  try (destruct (option_map py_int _); discriminate H);
  try discriminate H;
  match type of H with
  | Some (opt_str (option_map strip (search1 ?R t))) = _ =>
      destruct (search1 R t) as [d|] eqn:E; cbn [opt_str option_map] in H; [|discriminate H];
      injection H as <-;
      first [exact (clean_description t d E) | exact (clean_quorum t d E)
            | exact (clean_majority t d E) | exact (clean_result t d E)]
  | Some (opt_str (search1 re_date t)) = _ =>
      destruct (search1 re_date t) as [d|] eqn:E; cbn [opt_str] in H; [|discriminate H];
      injection H as <-; exact (clean_date t d E)
  end.
Qed.

(** Every integer value of the record is non-negative. *)
Theorem record_int_fields_nonneg (t : text) (k : string) (z : Z) :
  field k t = Some (JInt z) -> (0 <= z)%Z.
Proof.
  record_cases k; intros H;
  try (exfalso; exact (parse_project_no_int t k z H));
  try (destruct (option_map strip _); discriminate H);
  try (destruct (search1 re_date t); discriminate H);
  try discriminate H;
  match type of H with
  | Some (opt_int (option_map py_int ?o)) = _ =>
      destruct o as [d|]; cbn [opt_int option_map] in H; [|discriminate H];
      injection H as <-; apply py_int_nonneg
  end.
Qed.

Lemma rds_cons2 (a b : N) (s : text) :
  replace_double_space (a :: b :: s)
  = if (a =? 32) && (b =? 32) then 32 :: replace_double_space s
    else a :: replace_double_space (b :: s).
Proof.
  destruct (N.eqb_spec a 32) as [->|Ha]; [destruct (N.eqb_spec b 32) as [->|Hb]|]; cbn [andb].
  - reflexivity.
  - destruct b as [|b]; [reflexivity|].
    do 6 (destruct b as [b|b|]; try reflexivity). exfalso. apply Hb. reflexivity.
  - destruct a as [|a]; [reflexivity|].
    do 6 (destruct a as [a|a|]; try reflexivity). exfalso. apply Ha. reflexivity.
Qed.

Lemma rds_single (a : N) : replace_double_space [a] = [a].
Proof.
  destruct a as [|a]; [reflexivity|].
  do 6 (destruct a as [a|a|]; try reflexivity).
Qed.

Lemma rds_head (s : text) : head (replace_double_space s) = head s.
Proof.
  destruct s as [|a [|b s]]; [reflexivity|rewrite rds_single; reflexivity|].
  rewrite rds_cons2. destruct (N.eqb_spec a 32) as [->|]; [destruct (b =? 32)|]; reflexivity.
Qed.

Lemma rds_forall (P : N -> Prop) (s : text) :
  P 32 -> Forall P s -> Forall P (replace_double_space s).
Proof.
  intros H32. remember (length s) as n eqn:En. assert (Hn : (length s <= n)%nat) by lia. clear En.
  revert s Hn. induction n as [n IH] using lt_wf_ind. intros s Hn.
  destruct s as [|a [|b s]]; intros Hs; [constructor|rewrite rds_single; exact Hs|].
  rewrite rds_cons2. inversion Hs as [|? ? Ha Hs']; subst.
  cbn in Hn. destruct ((a =? 32) && (b =? 32)).
  - constructor; [exact H32|]. apply (IH (length s)); [lia|lia|]. inversion Hs'; assumption.
  - constructor; [exact Ha|]. apply (IH (length (b :: s))); [cbn; lia|lia|exact Hs'].
Qed.

Lemma lstrip_nil (l : text) : lstrip l = [] -> Forall (fun c => is_space c = true) l.
Proof.
  induction l as [|a l IH]; [constructor|].
  rewrite lstrip_cons. destruct (is_space a) eqn:E; [|discriminate].
  intros H. constructor; auto.
Qed.

Lemma strip_head_keep (s : text) (a : N) :
  head s = Some a -> is_space a = false -> head (strip s) = Some a.
Proof.
  destruct s as [|x l]; [discriminate|]. intros Hh Ha. cbn in Hh. injection Hh as ->.
  unfold strip. rewrite lstrip_cons, Ha, head_reverse.
  destruct (lstrip_suffix (reverse (a :: l))) as (b & Hb & Fb).
  assert (Hlast : last (reverse (a :: l)) = Some a) by (rewrite last_reverse; reflexivity).
  destruct (last (lstrip (reverse (a :: l)))) as [y|] eqn:Ey.
  - rewrite Hb, last_app, Ey in Hlast. exact Hlast.
  - apply last_None in Ey. rewrite Ey, app_nil_r in Hb.
    rewrite Hb in Hlast. apply last_Some_elem_of in Hlast.
    rewrite Forall_forall in Fb. rewrite (Fb a Hlast) in Ha. discriminate.
Qed.

Lemma upper_not_space (c : N) : is_upper_es c = true -> is_space c = false.
Proof.
  intros Hd. destruct (is_space c) eqn:Hs; [|reflexivity].
  apply is_space_cases in Hs.
  repeat (apply elem_of_cons in Hs as [->|Hs]; [vm_compute in Hd; discriminate|]).
  apply elem_of_nil in Hs. contradiction.
Qed.

Lemma upper_not_paren_nl (c : N) : is_upper_es c = true -> not_paren_nl c = true.
Proof.
  unfold is_upper_es, not_paren_nl, nl. intros H.
  repeat match type of H with
  | (_ || _) = true => apply orb_true_iff in H as [H|H]
  end;
  repeat match type of H with
  | (_ && _) = true => apply andb_true_iff in H as [?H ?H]
  end;
  repeat match goal with
  | Hb : (_ <=? _) = true |- _ => apply N.leb_le in Hb
  | Hb : (_ =? _) = true |- _ => apply N.eqb_eq in Hb; subst
  end;
  [|reflexivity..].
  destruct (N.eqb_spec c 40); [lia|]. destruct (N.eqb_spec c 41); [lia|].
  destruct (N.eqb_spec c 10); [lia|]. reflexivity.
Qed.

Lemma spans_rep1 (P : N -> bool) (hi : option nat) (g : bool) (t : text) (p q : nat) :
  spans t (Rep P 1 hi g) p q ->
  (p < q <= length t)%nat /\ slice t (p, q) <> [] /\ Forall (fun c => P c = true) (slice t (p, q)).
Proof. intros H. apply (spans_plus P t p q). exact H. Qed.

Lemma vote_match_groups (t : text) (p : nat) (c : caps) :
  match_at t re_vote p = Some c ->
  exists s1 e1 s2 e2,
    group c 1 = Some (s1, e1) /\ spans t (Seq (one is_upper_es) (Rep not_paren_nl 1 None false)) s1 e1
    /\ group c 2 = Some (s2, e2) /\ spans t (Alt (L "SI") (Alt (L "NO") (L "AUSENTE"))) s2 e2.
Proof.
  unfold match_at, re_vote. cbn [seqs]. intros H.
  peel H. peel H. peel H. peel H. peel H. peel H.
  cbn in H. injection H as <-.
  do 4 eexists. split; [reflexivity|]. split; [eassumption|].
  split; [reflexivity|]. eassumption.
Qed.

(** Every vote entry records [SI], [NO] or [AUSENTE], and its name starts
    with an upper-case letter of [[A-ZÁÉÍÓÚÑ]] and holds no parenthesis
    and no line break. *)
Theorem vote_entries_vote_and_name (t : text) (v : vote_entry) :
  In v (extract_votes t) ->
  (v_vote v = u "SI" \/ v_vote v = u "NO" \/ v_vote v = u "AUSENTE")
  /\ (exists a, head (v_name v) = Some a /\ is_upper_es a = true)
  /\ Forall (fun c => not_paren_nl c = true) (v_name v).
Proof.
  intros Hv. apply collect_votes_from in Hv as (c & Hc & Hm).
  apply findall_match in Hc as (p & Hp).
  apply vote_match_groups in Hp as (s1 & e1 & s2 & e2 & G1 & S1 & G2 & S2).
  unfold vote_of_match in Hm.
  destruct (Nat.ltb_spec (length (replace_double_space (strip (group_text t c 1)))) 2);
    [discriminate|].
  injection Hm as <-. cbn [v_vote v_name].
  unfold group_text. rewrite G1, G2.
  split.
  - unfold L in S2. destruct S2 as [S2|[S2|S2]]; apply spans_lit in S2 as [_ ->]; auto.
  - destruct S1 as (m & Sa & Sb). unfold one in Sa.
    apply spans_rep1 in Sa as (Ba & Na & Ua). apply spans_rep1 in Sb as (Bb & _ & Fb).
    rewrite (slice_app t s1 m e1) by lia.
    destruct (slice t (s1, m)) as [|a l] eqn:El; [contradiction|].
    inversion Ua as [|? ? Hua _]; subst.
    split.
    + exists a. split; [|exact Hua].
      rewrite rds_head. apply strip_head_keep; [reflexivity | apply upper_not_space, Hua].
    + apply rds_forall; [reflexivity|]. apply strip_forall. apply Forall_app. split; [|exact Fb].
      eapply Forall_impl; [exact Ua|]. intros x Hx. apply upper_not_paren_nl, Hx.
Qed.

Lemma tally_check_no_total (mk : Z -> Z -> diag) (r : option Z) (n a b c : Z) :
  (forall x y, mk x y <> TotalMismatch a b c) -> ~ In (TotalMismatch a b c) (tally_check mk r n).
Proof.
  intros Hmk. unfold tally_check. destruct r as [r|]; [|cbn; tauto].
  destruct (Z.eqb n r); cbn; [tauto|]. intros [H|[]]. exact (Hmk _ _ H).
Qed.

(** The parser warns that the total does not add up exactly when it found
    all three of [total_members], [present] and [absent] and the first is
    not the sum of the other two. *)
Theorem total_mismatch_warning (t : text) (a b c : Z) :
  In (TotalMismatch a b c) (snd (parse_votation_data t)) <->
  field "total_members" t = Some (JInt a) /\ field "present" t = Some (JInt b)
  /\ field "absent" t = Some (JInt c) /\ a <> (b + c)%Z.
Proof.
  rewrite field_total_members, field_present, field_absent.
  unfold parse_votation_data. cbv zeta. cbn [snd]. rewrite !in_app_iff.
  assert (L1 : forall o, ~ In (TotalMismatch a b c)
                 (match o with Some (x :: d') => [ProcessingDate (x :: d')] | _ => [] end)).
  { intros [[|x d]|]; cbn; [tauto| |tauto]. intros [H|[]]. discriminate H. }
  pose proof (tally_check_no_total AffirmativeMismatch (option_map py_int (search1 re_affirmative t))
                (count_vote (u "SI") (extract_votes t)) a b c ltac:(discriminate)) as L3a.
  pose proof (tally_check_no_total NegativeMismatch (option_map py_int (search1 re_negative t))
                (count_vote (u "NO") (extract_votes t)) a b c ltac:(discriminate)) as L3b.
  pose proof (tally_check_no_total AbsentMismatch (option_map py_int (search1 re_absent t))
                (count_vote (u "AUSENTE") (extract_votes t)) a b c ltac:(discriminate)) as L3c.
  destruct (option_map py_int (search1 re_members t)) as [tm|];
  destruct (option_map py_int (search1 re_present t)) as [pr|];
  destruct (option_map py_int (search1 re_absent t)) as [ab|];
  cbn [opt_int];
  try (split; [intros [H|[H|H]]; [contradiction (L1 _ H) | cbn in H; contradiction
                                  | tauto]
              | intros (H1 & H2 & H3 & _); discriminate]).
  destruct (Z.eqb_spec tm (pr + ab)) as [E|E]; split.
  - intros [H|[H|H]]; [exfalso; exact (L1 _ H) | cbn in H; contradiction | tauto].
  - intros (H1 & H2 & H3 & H4). injection H1 as <-. injection H2 as <-. injection H3 as <-. contradiction.
  - intros [H|[H|H]]; [exfalso; exact (L1 _ H) | | tauto].
    destruct H as [H|[]]. injection H as <- <- <-. auto.
  - intros (H1 & H2 & H3 & H4). injection H1 as <-. injection H2 as <-. injection H3 as <-.
    right. left. left. reflexivity.
Qed.

(** ** The acquisition loop *)

Lemma step_shape (dl : Z -> option pdf) (st : state) :
  step dl st = State (results_by_year st) (year_files st) (current_id st + 1) (consecutive_failures st + 1)
  \/ step dl st = State (results_by_year st) (year_files st) (current_id st + 1) 0
  \/ exists f data d, dict_get "date" data = Some (JStr d) /\ get_output_filename d = Some f
       /\ dict_get "act_id" data = Some (JInt (current_id st + 1))
       /\ step dl st = store_act f data (State (results_by_year st) (year_files st) (current_id st + 1) 0).
Proof.
  unfold step.
  destruct (dl (current_id st + 1)%Z) as [d|]; [|left; reflexivity].
  destruct (extract_text_from_pdf d) as [t|]; [|left; reflexivity].
  pose proof (field_date t) as Fd. unfold field in Fd.
  destruct (truthy (dict_get "date" (fst (parse_votation_data t)))) eqn:Tr; cbn [negb];
    [|left; reflexivity].
  assert (Hda : String.eqb "date" "act_id" = false) by reflexivity.
  right. rewrite dict_get_set, Hda. rewrite Fd in Tr |- *.
  destruct (search1 re_date t) as [ds|]; [|discriminate Tr]. cbn [date_text opt_str].
  destruct (get_output_filename ds) as [f|] eqn:Ef; [right|left; reflexivity].
  exists f, (dict_set "act_id" (JInt (current_id st + 1)) (fst (parse_votation_data t))), ds.
  rewrite !dict_get_set, Hda, Fd. rewrite String.eqb_refl. repeat split. exact Ef.
Qed.

Lemma step_counters (dl : Z -> option pdf) (st : state) :
  current_id (step dl st) = (current_id st + 1)%Z
  /\ (consecutive_failures (step dl st) = 0%Z
      \/ consecutive_failures (step dl st) = (consecutive_failures st + 1)%Z).
Proof.
  destruct (step_shape dl st) as [->|[->|(f & data & d & _ & _ & _ & ->)]]; cbn; auto.
Qed.

(** Started with a failure counter between 0 and 5, the loop keeps it
    there, fetches the acts one after the other, and when it stops before
    running out of fuel it has seen exactly [MAX_CONSECUTIVE_FAILURES]
    failures in a row. *)
Theorem run_counter_bounds (n : nat) (dl : Z -> option pdf) (st : state) :
  (0 <= consecutive_failures st <= MAX_CONSECUTIVE_FAILURES)%Z ->
  (0 <= consecutive_failures (run n dl st) <= MAX_CONSECUTIVE_FAILURES)%Z
  /\ exists m, (m <= n)%nat
     /\ current_id (run n dl st) = (current_id st + Z.of_nat m)%Z
     /\ ((m < n)%nat -> consecutive_failures (run n dl st) = MAX_CONSECUTIVE_FAILURES).
Proof.
  revert st. induction n as [|n IH]; intros st Hb.
  - cbn. split; [exact Hb|]. exists 0%nat. split; [lia|]. split; [lia|]. lia.
  - cbn [run]. destruct (Z.ltb_spec (consecutive_failures st) MAX_CONSECUTIVE_FAILURES) as [Hlt|Hge].
    + destruct (step_counters dl st) as [Hid Hcf].
      assert (Hb' : (0 <= consecutive_failures (step dl st) <= MAX_CONSECUTIVE_FAILURES)%Z) by lia.
      destruct (IH _ Hb') as (Hb'' & m & Hm & Hidm & Hstop).
      split; [exact Hb''|]. exists (S m). split; [lia|]. split; [rewrite Hidm, Hid; lia|].
      intros Hlt'. apply Hstop. lia.
    + split; [exact Hb|]. exists 0%nat. split; [lia|]. split; [lia|]. intros _. lia.
Qed.

Lemma run_id_mono (n : nat) (dl : Z -> option pdf) (st : state) :
  (current_id st <= current_id (run n dl st))%Z.
Proof.
  revert st. induction n as [|n IH]; intros st; cbn [run]; [lia|].
  destruct (consecutive_failures st <? MAX_CONSECUTIVE_FAILURES)%Z; [|lia].
  specialize (IH (step dl st)). destruct (step_counters dl st) as [Hid _]. lia.
Qed.

Lemma loop_record_widen (f : string) (lo hi lo' hi' : Z) (r : jval) :
  (lo' <= lo)%Z -> (hi <= hi')%Z -> loop_record f lo hi r -> loop_record f lo' hi' r.
Proof.
  intros H1 H2 (data & d & id & ? & ? & ? & ? & ?). exists data, d, id. repeat split; auto; lia.
Qed.

Lemma step_appends (dl : Z -> option pdf) (st : state) (f : string) :
  exists l', default [] (results_by_year (step dl st) !! f) = default [] (results_by_year st !! f) ++ l'
    /\ Forall (loop_record f (current_id st) (current_id (step dl st))) l'.
Proof.
  destruct (step_shape dl st) as [->|[->|(f' & data & d & Hd & Hf & Ha & ->)]];
    [exists []; rewrite app_nil_r; auto..|].
  cbn. destruct (String.eq_dec f f') as [<-|Hne].
  - rewrite lookup_insert_eq. cbn. exists [JObj data]. split; [reflexivity|].
    constructor; [|constructor]. exists data, d, (current_id st + 1)%Z. repeat split; auto; lia.
  - rewrite lookup_insert_ne by congruence. exists []. rewrite app_nil_r. auto.
Qed.

(** The loop never drops, replaces or reorders a stored record: what it
    does to a year's list is append records, each a record whose date
    names that year's file and whose [act_id] is one of the ids the loop
    fetched. *)
Theorem run_only_appends (n : nat) (dl : Z -> option pdf) (st : state) (f : string) :
  exists l', default [] (results_by_year (run n dl st) !! f) = default [] (results_by_year st !! f) ++ l'
    /\ Forall (loop_record f (current_id st) (current_id (run n dl st))) l'.
Proof.
  revert st. induction n as [|n IH]; intros st; cbn [run].
  - exists []. rewrite app_nil_r. auto.
  - destruct (consecutive_failures st <? MAX_CONSECUTIVE_FAILURES)%Z; [|exists []; rewrite app_nil_r; auto].
    destruct (step_appends dl st f) as (l1 & E1 & F1).
    destruct (IH (step dl st)) as (l2 & E2 & F2).
    pose proof (run_id_mono n dl (step dl st)) as M.
    destruct (step_counters dl st) as [Hid _].
    exists (l1 ++ l2). rewrite E2, E1, app_assoc. split; [reflexivity|].
    apply Forall_app. split.
    + eapply Forall_impl; [exact F1|]. intros r. apply loop_record_widen; lia.
    + eapply Forall_impl; [exact F2|]. intros r. apply loop_record_widen; lia.
Qed.



Lemma lstrip_all_space (l : text) : Forall (fun c => is_space c = true) l -> lstrip l = [].
Proof. induction 1 as [|a l Ha _ IH]; [reflexivity|]. rewrite lstrip_cons, Ha. exact IH. Qed.

Lemma join_nl_space (ps : list text) :
  Forall (Forall (fun c => is_space c = true)) ps -> Forall (fun c => is_space c = true) (join_nl ps).
Proof.
  induction 1 as [|p ps Hp Hps IH]; [constructor|].
  destruct ps as [|q ps]; [exact Hp|].
  cbn [join_nl]. apply Forall_app. split; [exact Hp|]. constructor; [reflexivity | exact IH].
Qed.

(** A document the server returned but that cannot be read, or whose pages
    hold nothing but whitespace, counts as one more consecutive failure and
    changes nothing else. *)
Theorem unreadable_or_blank_document_fails (dl : Z -> option pdf) (st : state) (d : pdf) :
  dl (current_id st + 1)%Z = Some d ->
  (d = PdfUnreadable
   \/ exists ps, d = PdfPages ps /\ Forall (Forall (fun c => is_space c = true)) ps) ->
  step dl st = State (results_by_year st) (year_files st) (current_id st + 1)
                     (consecutive_failures st + 1).
Proof.
  intros Hdl Hd. unfold step. rewrite Hdl.
  assert (E : extract_text_from_pdf d = None).
  { destruct Hd as [->|(ps & -> & Hps)]; [reflexivity|].
    cbn [extract_text_from_pdf].
    assert (Hs : strip (join_nl (filter (fun p => p <> []) ps)) = []).
    { unfold strip. rewrite (lstrip_all_space (join_nl _)); [reflexivity|].
      apply join_nl_space. apply Forall_forall. intros x Hx.
      apply list_elem_of_filter in Hx as [_ Hx]. rewrite Forall_forall in Hps. auto. }
    rewrite Hs. reflexivity. }
  rewrite E. reflexivity.
Qed.

(** ** The JSON text written to the year files *)



















Definition description_sample : text := u "Descripción:  Ley de presupuesto  
Fecha: 12/03/2024 10:00:00".

Lemma record_text_fields_clean_witness :
  field "description" description_sample = Some (JStr (u "Ley de presupuesto"))
  /\ clean (u "Ley de presupuesto").
Proof.
  assert (H : field "description" description_sample = Some (JStr (u "Ley de presupuesto")))
    by (vm_compute; reflexivity).
  split; [exact H | exact (record_text_fields_clean description_sample "description" _ H)].
Defined.

Lemma record_int_fields_nonneg_witness :
  field "present" (u "Presentes: 70") = Some (JInt 70) /\ (0 <= 70)%Z.
Proof.
  assert (H : field "present" (u "Presentes: 70") = Some (JInt 70)) by (vm_compute; reflexivity).
  split; [exact H | exact (record_int_fields_nonneg (u "Presentes: 70") "present" 70 H)].
Defined.

Definition vote_sample : text := u "1 . GARCIA, Ana   SI   12".
Definition vote_sample_entry : vote_entry := VoteEntry (u "GARCIA, Ana") (u "SI") (u "12").

Lemma vote_entries_vote_and_name_witness :
  In vote_sample_entry (extract_votes vote_sample)
  /\ (v_vote vote_sample_entry = u "SI" \/ v_vote vote_sample_entry = u "NO"
      \/ v_vote vote_sample_entry = u "AUSENTE")
  /\ (exists a, head (v_name vote_sample_entry) = Some a /\ is_upper_es a = true)
  /\ Forall (fun c => not_paren_nl c = true) (v_name vote_sample_entry).
Proof.
  assert (H : In vote_sample_entry (extract_votes vote_sample)) by (vm_compute; left; reflexivity).
  split; [exact H | exact (vote_entries_vote_and_name vote_sample vote_sample_entry H)].
Defined.

Lemma run_counter_bounds_witness :
  (0 <= consecutive_failures (state_with_failures 2) <= MAX_CONSECUTIVE_FAILURES)%Z
  /\ (0 <= consecutive_failures (run 3 (one_document dated_act) (state_with_failures 2))
        <= MAX_CONSECUTIVE_FAILURES)%Z
  /\ exists m, (m <= 3)%nat
     /\ current_id (run 3 (one_document dated_act) (state_with_failures 2))
        = (current_id (state_with_failures 2) + Z.of_nat m)%Z
     /\ ((m < 3)%nat -> consecutive_failures (run 3 (one_document dated_act) (state_with_failures 2))
                        = MAX_CONSECUTIVE_FAILURES).
Proof.
  assert (H : (0 <= consecutive_failures (state_with_failures 2) <= MAX_CONSECUTIVE_FAILURES)%Z)
    by (vm_compute; split; discriminate).
  split; [exact H | exact (run_counter_bounds 3 (one_document dated_act) (state_with_failures 2) H)].
Defined.



Definition no_document (i : Z) : option pdf := Some PdfUnreadable.

Lemma unreadable_or_blank_document_fails_witness :
  no_document (current_id (state_with_failures 2) + 1)%Z = Some PdfUnreadable
  /\ step no_document (state_with_failures 2)
     = State ∅ ∅ (current_id (state_with_failures 2) + 1) (consecutive_failures (state_with_failures 2) + 1).
Proof.
  assert (H : no_document (current_id (state_with_failures 2) + 1)%Z = Some PdfUnreadable)
    by reflexivity.
  split; [exact H|].
  exact (unreadable_or_blank_document_fails no_document (state_with_failures 2) PdfUnreadable H
           (or_introl eq_refl)).
Defined.


